(** * fix_swagger.py: removing redundant empty 200 responses

    A shallow embedding of [src/Octopus.Api.Client/fix_swagger.py] and the
    properties of its normalization pass.

    The script loads [swagger.json.new], walks [paths -> methods ->
    responses], deletes the ["200"] response of every operation that also
    has a ["201"] response when the content of the ["200"] response is
    empty, prints one line per deletion, writes [swagger.json] and prints a
    summary line. *)

From Stdlib Require Import List String Ascii ZArith Bool Arith Lia.
From Stdlib Require Import Floats.SpecFloat.
From Stdlib Require Import Numbers.DecimalString.
Import ListNotations.
Local Open Scope string_scope.
Set Warnings "-register-all".

(** ** JSON values, as [json.load] builds them

    A JSON object becomes a Python [dict]: the entries are kept in insertion
    order, which is the order the loops of the script visit them in and the
    order [json.dump] writes them in, so a [dict] is an association list.
    Python numbers are [int] (unbounded) or [float] (IEEE 754 binary64,
    including the [NaN] and [Infinity] literals [json.load] accepts).
    A Python [str] is the string of the bytes of its UTF-8 encoding, with a
    lone surrogate (which [json.load] builds from an escape) written in the
    same scheme: the ASCII characters are the bytes below 128, and a
    substring of ASCII characters is a substring of the bytes. *)

Inductive json : Type :=
| JNull
| JBool (b : bool)
| JInt (z : Z)
| JFloat (f : spec_float)
| JStr (s : string)
| JArr (l : list json)
| JObj (d : list (string * json)).

Definition dict : Type := list (string * json).

(** The exceptions the script can die of. *)
Inductive exn : Type :=
| OSError             (* open: FileNotFoundError, PermissionError,
                         IsADirectoryError and the other subclasses *)
| ValueError          (* json.load: JSONDecodeError, UnicodeDecodeError,
                         an integer with too many digits *)
| RecursionError      (* json.load on a document nested too deep *)
| AttributeError      (* .get / .items on a value that is not a dict *)
| TypeError           (* [in] or a subscript on a value that does not support it *)
| KeyError            (* a subscript with a key the dict does not have *)
| UnicodeEncodeError. (* print of a line that stdout cannot encode *)

(** ** Dictionaries *)

(** [d.get(k)]. *)
Fixpoint dict_get (k : string) (d : dict) : option json :=
  match d with
  | [] => None
  | (k', v) :: rest => if String.eqb k' k then Some v else dict_get k rest
  end.

(** [k in d]. *)
Definition dict_mem (k : string) (d : dict) : bool :=
  match dict_get k d with Some _ => true | None => false end.

(** [d[k] = v]: an existing key keeps its position, a new key goes last. *)
Fixpoint dict_set (k : string) (v : json) (d : dict) : dict :=
  match d with
  | [] => [(k, v)]
  | (k', v') :: rest =>
      if String.eqb k' k then (k, v) :: rest else (k', v') :: dict_set k v rest
  end.

(** [del d[k]]: afterwards [k] is not a key of [d]; the other entries keep
    their order. *)
Definition dict_del (k : string) (d : dict) : dict :=
  filter (fun kv => negb (String.eqb (fst kv) k)) d.

Definition keys (d : dict) : list string := map fst d.

(** ** Python's operators on JSON values *)

(** [bool(v)]: [None], [False], zero, and the empty string, list and dict
    are falsy; everything else (a [NaN] too) is truthy. *)
Definition truthy (v : json) : bool :=
  match v with
  | JNull => false
  | JBool b => b
  | JInt z => negb (Z.eqb z 0)
  | JFloat (S754_zero _) => false
  | JFloat _ => true
  | JStr EmptyString => false
  | JStr _ => true
  | JArr [] => false
  | JArr _ => true
  | JObj [] => false
  | JObj _ => true
  end.

(** [isinstance(v, dict)]. *)
Definition is_dict (v : json) : bool :=
  match v with JObj _ => true | _ => false end.

(** [needle in hay] on two strings: substring search. *)
Fixpoint str_contains (needle hay : string) : bool :=
  if String.prefix needle hay then true
  else match hay with
       | EmptyString => false
       | String _ rest => str_contains needle rest
       end.

(** [x == k] for a JSON value [x] and a string [k]. *)
Definition eq_str (k : string) (x : json) : bool :=
  match x with JStr s => String.eqb s k | _ => false end.

(** [k in v] for a string [k]: key membership on a dict, element membership
    on a list, substring search on a string, and a [TypeError] on [None],
    booleans and numbers. *)
Definition py_in (k : string) (v : json) : exn + bool :=
  match v with
  | JObj d => inr (dict_mem k d)
  | JArr l => inr (existsb (eq_str k) l)
  | JStr s => inr (str_contains k s)
  | _ => inl TypeError
  end.

(** [v[k]] for a string [k]: only a dict can be indexed by a string. *)
Definition py_getitem (v : json) (k : string) : exn + json :=
  match v with
  | JObj d => match dict_get k d with
              | Some x => inr x
              | None => inl KeyError
              end
  | _ => inl TypeError
  end.

(** [del v[k]], the container afterwards. *)
Definition py_delitem (v : json) (k : string) : exn + json :=
  match v with
  | JObj d => inr (JObj (dict_del k d))
  | _ => inl TypeError
  end.

(** [v.items()]. *)
Definition py_items (v : json) : exn + dict :=
  match v with
  | JObj d => inr d
  | _ => inl AttributeError
  end.

(** ** The state of the run and its monad

    The pass threads the counter [count] and what has been printed so far.
    An exception stops the run, but what was printed before it stays
    printed: the state survives the error. *)

Record state : Type := mkState { count : nat; stdout : list string }.

Definition M (A : Type) : Type := state -> (exn + A) * state.

Definition ret {A : Type} (a : A) : M A := fun st => (inr a, st).

Definition raise {A : Type} (e : exn) : M A := fun st => (inl e, st).

Definition bind {A B : Type} (m : M A) (f : A -> M B) : M B :=
  fun st =>
    match m st with
    | (inl e, st') => (inl e, st')
    | (inr a, st') => f a st'
    end.

Definition lift {A : Type} (r : exn + A) : M A :=
  match r with inl e => raise e | inr a => ret a end.

Notation "x <- m ;; k" := (bind m (fun x => k))
  (at level 61, m at next level, right associativity).
Notation "m ;;; k" := (bind m (fun _ => k))
  (at level 61, right associativity).

(** [count += 1]. *)
Definition incr_count : M unit :=
  fun st => (inr tt, mkState (S (count st)) (stdout st)).

(** [for k, v in items: v = body(k, v)], the values replaced in place. *)
Fixpoint for_items (body : string -> json -> M json) (items : dict) : M dict :=
  match items with
  | [] => ret []
  | (k, v) :: rest =>
      v' <- body k v ;;
      rest' <- for_items body rest ;;
      ret ((k, v') :: rest')
  end.

(** [str(n)] for a natural number. *)
Definition str_of_nat (n : nat) : string :=
  NilZero.string_of_uint (Nat.to_uint n).

(** The strings of ASCII characters. *)
Definition is_ascii_char (c : ascii) : bool := (nat_of_ascii c <? 128)%nat.

Fixpoint is_ascii (s : string) : bool :=
  match s with
  | EmptyString => true
  | String c rest => is_ascii_char c && is_ascii rest
  end.

(** An upper-casing of the ASCII letters, to run the script on examples. *)
Definition ascii_upper_char (c : ascii) : ascii :=
  let n := nat_of_ascii c in
  if ((97 <=? n) && (n <=? 122))%nat then ascii_of_nat (n - 32) else c.

Fixpoint ascii_upper (s : string) : string :=
  match s with
  | EmptyString => EmptyString
  | String c rest => String (ascii_upper_char c) (ascii_upper rest)
  end.

(** ** The script

    The script mutates the loaded document in place.  [json.load] builds a
    tree: no dict is reachable along two ways, so deleting a key of one
    [responses] dict changes that operation and nothing else, and the loops,
    which iterate over [paths] and [methods] while only a [responses] dict
    below them shrinks, never see a dict change size under them.  The model
    therefore returns, from each loop body, the value that stands at that
    place after the body has run. *)

Section Script.

(** [str.upper] is Python's, with its Unicode case tables; the script is
    modelled for any such function. *)
Variable upper : string -> string.

(** The encoding of stdout and its error handler are the environment's:
    [can_encode line] says whether stdout encodes the line [line].  A line
    of ASCII characters is encoded by every encoding stdout can have. *)
Variable can_encode : string -> bool.

Definition encodable (line : string) : bool :=
  is_ascii line || can_encode line.

(** [print(line)]: the line is encoded as a whole before any of it is
    written, so a line that cannot be encoded raises and prints nothing. *)
Definition print (line : string) : M unit :=
  fun st =>
    if encodable line
    then (inr tt, mkState (count st) (stdout st ++ [line]))
    else (inl UnicodeEncodeError, st).

(** f"Removed empty 200 from {method.upper()} {path}" *)
Definition removed_line (method path : string) : string :=
  "Removed empty 200 from " ++ upper method ++ " " ++ path.

(** f"Fixed {count} endpoints. Saved to swagger.json" *)
Definition summary_line (n : nat) : string :=
  "Fixed " ++ str_of_nat n ++ " endpoints. Saved to swagger.json".

(** [r200.get('content', {})]. *)
Definition get_content (r200 : dict) : json :=
  match dict_get "content" r200 with
  | Some content => content
  | None => JObj []
  end.

(** [isinstance(content, dict) and 'application/json' in content and
    not content['application/json']]. *)
Definition empty_application_json (content : json) : bool :=
  match content with
  | JObj c =>
      match dict_get "application/json" c with
      | Some schema => negb (truthy schema)
      | None => false
      end
  | _ => false
  end.

(** The condition of the innermost [if] (lines 22-24). *)
Definition removal_condition (content : json) : bool :=
  negb (truthy content) || empty_application_json content.

(** The body of the inner loop (lines 14-27) for one [method, details]
    entry of the path [path]; the result is [details] after the body. *)
Definition process_method (path method : string) (details : json) : M json :=
  match details with
  | JObj d =>
      match dict_get "responses" d with
      | Some responses =>
          has201 <- lift (py_in "201" responses) ;;
          has200 <- (if has201 : bool then lift (py_in "200" responses)
                     else ret false) ;;
          if has201 && has200 then
            r200 <- lift (py_getitem responses "200") ;;
            match r200 with
            | JObj r =>
                let content := get_content r in
                if removal_condition content then
                  responses' <- lift (py_delitem responses "200") ;;
                  incr_count ;;;
                  print (removed_line method path) ;;;
                  ret (JObj (dict_set "responses" responses' d))
                else ret details
            | _ => ret details
            end
          else ret details
      | None => ret details
      end
  | _ => ret details
  end.

(** The body of the outer loop (line 13) for one [path, methods] entry. *)
Definition process_path (path : string) (methods : json) : M json :=
  items <- lift (py_items methods) ;;
  items' <- for_items (process_method path) items ;;
  ret (JObj items').

(** The whole pass (lines 12-27): the document after it. *)
Definition normalize (spec : json) : M json :=
  match spec with
  | JObj top =>
      match dict_get "paths" top with
      | Some paths =>
          items <- lift (py_items paths) ;;
          items' <- for_items process_path items ;;
          ret (JObj (dict_set "paths" (JObj items') top))
      | None => ret spec
      end
  | _ => raise AttributeError
  end.

(** ** The files and the console

    The script reads one fixed file and writes another.  What [open] and
    [json.load] make of [swagger.json.new] is one of three things: [open]
    raises, [json.load] raises, or [json.load] returns a document.  The
    document [json.dump] stores in [swagger.json] stands for the text of
    that file. *)

Inductive source : Type :=
| NoFile                 (* open raises: the file cannot be opened *)
| BadJSON (e : exn)      (* json.load raises [e] on what the file holds *)
| Loaded (spec : json).  (* json.load returns [spec] *)

Record world : Type := mkWorld {
  swagger_json_new : source;
  swagger_json : option json;
  swagger_json_writable : bool;
  console : list string
}.

Definition with_console (lines : list string) (w : world) : world :=
  mkWorld (swagger_json_new w) (swagger_json w) (swagger_json_writable w) lines.

(** The script from top to bottom: the exception it dies of, if any, and
    the world it leaves. *)
Definition main (w : world) : option exn * world :=
  match swagger_json_new w with
  | NoFile => (Some OSError, w)
  | BadJSON e => (Some e, w)
  | Loaded spec =>
      match normalize spec (mkState 0 (console w)) with
      | (inl e, st) => (Some e, with_console (stdout st) w)
      | (inr spec', st) =>
          if swagger_json_writable w then
            match print (summary_line (count st)) st with
            | (inl e, st') =>
                (Some e, mkWorld (swagger_json_new w) (Some spec') true (stdout st'))
            | (inr _, st') =>
                (None, mkWorld (swagger_json_new w) (Some spec') true (stdout st'))
            end
          else (Some OSError, with_console (stdout st) w)
      end
  end.

(** ** What the pass is expected to do, stated without the loops *)

(** The operation has a responses dict with a ["201"] and a dict-valued
    ["200"] whose content meets the removal condition. *)
Definition removes (details : json) : bool :=
  match details with
  | JObj d =>
      match dict_get "responses" d with
      | Some (JObj rs) =>
          dict_mem "201" rs &&
          match dict_get "200" rs with
          | Some (JObj r) => removal_condition (get_content r)
          | _ => false
          end
      | _ => false
      end
  | _ => false
  end.

(** The operation with the ["200"] entry of its responses deleted. *)
Definition without_200 (details : json) : json :=
  match details with
  | JObj d =>
      match dict_get "responses" d with
      | Some (JObj rs) => JObj (dict_set "responses" (JObj (dict_del "200" rs)) d)
      | _ => details
      end
  | _ => details
  end.

Definition fixed (details : json) : json :=
  if removes details then without_200 details else details.

(** The exception one operation makes the loop body raise: a responses
    value that is not a dict is not guarded, so [in] or the subscript
    fails on it. *)
Definition op_error (details : json) : option exn :=
  match details with
  | JObj d =>
      match dict_get "responses" d with
      | None | Some (JObj _) => None
      | Some (JStr s) =>
          if str_contains "201" s && str_contains "200" s
          then Some TypeError else None
      | Some (JArr l) =>
          if existsb (eq_str "201") l && existsb (eq_str "200") l
          then Some TypeError else None
      | Some _ => Some TypeError
      end
  | _ => None
  end.

Definition fixed_methods (methods : json) : json :=
  match methods with
  | JObj ms => JObj (map (fun kv => (fst kv, fixed (snd kv))) ms)
  | _ => methods
  end.

Definition fixed_spec (spec : json) : json :=
  match spec with
  | JObj top =>
      match dict_get "paths" top with
      | Some (JObj ps) =>
          JObj (dict_set "paths"
                  (JObj (map (fun kv => (fst kv, fixed_methods (snd kv))) ps)) top)
      | _ => spec
      end
  | _ => spec
  end.

(** The path entries and the operations the two loops visit, in order. *)
Definition paths_of (spec : json) : dict :=
  match spec with
  | JObj top =>
      match dict_get "paths" top with
      | Some (JObj ps) => ps
      | _ => []
      end
  | _ => []
  end.

Definition methods_of (methods : json) : dict :=
  match methods with JObj ms => ms | _ => [] end.

Record operation : Type := mkOp {
  op_path : string;
  op_method : string;
  op_details : json
}.

Definition operations_at (path : string) (methods : json) : list operation :=
  map (fun kv => mkOp path (fst kv) (snd kv)) (methods_of methods).

Definition operations (spec : json) : list operation :=
  flat_map (fun kv => operations_at (fst kv) (snd kv)) (paths_of spec).

(** The operations whose ["200"] the pass deletes. *)
Definition removals (spec : json) : list operation :=
  filter (fun op => removes (op_details op)) (operations spec).

Definition removal_lines (ops : list operation) : list string :=
  map (fun op => removed_line (op_method op) (op_path op)) ops.

(** The state after the deletions [ops]: one count and one line each. *)
Definition advance (ops : list operation) (st : state) : state :=
  mkState (count st + List.length ops) (stdout st ++ removal_lines ops).

(** The deletion, if any, that one round of the inner loop makes. *)
Definition removal_at (path method : string) (details : json) : list operation :=
  if removes details then [mkOp path method details] else [].

End Script.

(** ** What the pass may change

    The relations below say, level by level, what may differ between a
    document and the document the pass makes of it. *)

(** A responses dict is kept as it is, or loses its ["200"] entry, which
    then was a dict meeting the removal condition next to a ["201"]. *)
Definition responses_frame (rs rs' : dict) : Prop :=
  (forall k, k <> "200" -> dict_get k rs' = dict_get k rs) /\
  (rs' = rs \/
   (rs' = dict_del "200" rs /\
    dict_mem "201" rs = true /\
    exists r200, dict_get "200" rs = Some (JObj r200) /\
                 removal_condition (get_content r200) = true)).

(** An operation is kept as it is, or keeps its keys and every value but
    that of ["responses"]. *)
Definition operation_frame (details details' : json) : Prop :=
  details' = details \/
  exists d rs rs',
    details = JObj d /\
    dict_get "responses" d = Some (JObj rs) /\
    details' = JObj (dict_set "responses" (JObj rs') d) /\
    keys (dict_set "responses" (JObj rs') d) = keys d /\
    (forall k, k <> "responses" ->
               dict_get k (dict_set "responses" (JObj rs') d) = dict_get k d) /\
    responses_frame rs rs'.

(** Two dicts with the same keys in the same order and related values. *)
Definition entries_frame (R : json -> json -> Prop) (d d' : dict) : Prop :=
  Forall2 (fun kv kv' => fst kv' = fst kv /\ R (snd kv) (snd kv')) d d'.

Definition path_frame (methods methods' : json) : Prop :=
  exists ms ms',
    methods = JObj ms /\ methods' = JObj ms' /\
    entries_frame operation_frame ms ms'.

Definition spec_frame (spec spec' : json) : Prop :=
  exists top top',
    spec = JObj top /\ spec' = JObj top' /\
    keys top' = keys top /\
    (forall k, k <> "paths" -> dict_get k top' = dict_get k top) /\
    match dict_get "paths" top with
    | None => top' = top
    | Some paths =>
        exists ps ps',
          paths = JObj ps /\ dict_get "paths" top' = Some (JObj ps') /\
          entries_frame path_frame ps ps'
    end.

(** The responses of the operation are a dict with both a ["201"] and a
    ["200"] key. *)
Definition has_both (details : json) : bool :=
  match details with
  | JObj d =>
      match dict_get "responses" d with
      | Some (JObj rs) => dict_mem "201" rs && dict_mem "200" rs
      | _ => false
      end
  | _ => false
  end.

(** The content of a ["200"] response is empty in the sense of the removal
    condition, in words: it is falsy, or it is a dict whose
    ["application/json"] value is falsy. *)
Definition empty_content (content : json) : Prop :=
  truthy content = false \/
  exists c schema,
    content = JObj c /\
    dict_get "application/json" c = Some schema /\
    truthy schema = false.

(** The falsy JSON values that are not dicts. *)
Definition falsy_scalars : list json :=
  [JNull; JBool false; JInt 0; JFloat (S754_zero false); JFloat (S754_zero true);
   JStr EmptyString; JArr []].

(** ** Documents to run the script on *)

Definition obj_type_object : json := JObj [("type", JStr "object")].

(** An operation with the given ["200"] response next to a ["201"]. *)
Definition responses_with_200 (r200 : json) : dict :=
  [("200", r200); ("201", JObj [("description", JStr "Created")])].

Definition op_entries (r200 : json) : dict :=
  [("summary", JStr "create"); ("responses", JObj (responses_with_200 r200))].

Definition op_with_200 (r200 : json) : json := JObj (op_entries r200).

(** The end-to-end example of the specification. *)
Definition doc_example : json :=
  JObj [("paths", JObj [("/x", JObj [("post",
    JObj [("responses",
      JObj [("200", JObj [("content", JObj [])]);
            ("201", JObj [("content",
               JObj [("application/json", JObj [("schema", JObj [])])])])])])])])].

Definition doc_example_fixed : json :=
  JObj [("paths", JObj [("/x", JObj [("post",
    JObj [("responses",
      JObj [("201", JObj [("content",
               JObj [("application/json", JObj [("schema", JObj [])])])])])])])])].

(** Two operations on two paths, a shared parameter list at the path level,
    one removable ["200"] and one that carries a schema. *)
Definition doc_two_paths : json :=
  JObj [("openapi", JStr "3.0.1");
        ("paths", JObj [
           ("/a", JObj [("parameters", JArr []);
                        ("post", op_with_200 (JObj [("description", JStr "OK")]))]);
           ("/b", JObj [("put", op_with_200
                           (JObj [("content",
                              JObj [("application/json", obj_type_object)])]));
                        ("get", JObj [("responses",
                           JObj [("200", JObj [("description", JStr "OK")])])])])]);
        ("info", JObj [("title", JStr "api")])].

Definition doc_no_paths : json :=
  JObj [("openapi", JStr "3.0.1"); ("info", JObj [])].

Definition doc_null_responses : json :=
  JObj [("paths", JObj [("/x", JObj [("get", JObj [("responses", JNull)])])])].

Definition doc_null_paths : json := JObj [("paths", JNull)].

Definition doc_null_path_item : json :=
  JObj [("paths", JObj [("/a", JObj [("post", op_with_200 (JObj []))]);
                        ("/b", JNull)])].

Definition doc_one_get : json :=
  JObj [("paths", JObj [("/x", JObj [("get", JObj [("responses",
    JObj [("200", JObj [("description", JStr "OK")])])])])])].

Definition doc_empty_paths : json := JObj [("paths", JObj [])].

(** Anomalies the type guards skip: a path-level parameter list and
    summary, a ["200"] that is a boolean or null, a content that is a
    string. *)
Definition doc_anomalies : json :=
  JObj [("paths", JObj [("/a", JObj [
    ("parameters", JArr []);
    ("summary", JStr "a");
    ("post", op_with_200 (JBool true));
    ("put", op_with_200 (JObj [("content", JStr "text")]));
    ("get", op_with_200 JNull)])])].

(** The same anomalies next to an operation whose ["200"] is removed. *)
Definition doc_anomalies_and_removal : json :=
  JObj [("paths", JObj [("/a", JObj [
    ("parameters", JArr []);
    ("post", op_with_200 (JBool true));
    ("put", op_with_200 (JObj [("content", JStr "text")]));
    ("delete", op_with_200 (JObj []))])])].

(** One operation with a ["201"] only, one with a ["200"] only. *)
Definition doc_no_both : json :=
  JObj [("paths", JObj [("/x", JObj [
    ("post", JObj [("responses", JObj [("201", JObj [])])]);
    ("get", JObj [("responses", JObj [("200", JObj [])])])])])].

Definition world_of (src : source) : world := mkWorld src None true [].

Definition world_after_example : world :=
  mkWorld (Loaded doc_example) (Some doc_example_fixed) true
    ["Removed empty 200 from POST /x";
     "Fixed 1 endpoints. Saved to swagger.json"].

(** ** More ways to say what the script does *)

(** [needle] occurs in [hay]. *)
Definition is_substring (needle hay : string) : Prop :=
  exists pre post, hay = pre ++ needle ++ post.

(** The responses values lines 17 and 18 fail on: [in] does not apply to
    null, a boolean or a number; a string or a list passes both [in] tests
    when it holds both codes, and then cannot be indexed by ["200"]. *)
Definition unguarded_responses (r : json) : Prop :=
  match r with
  | JNull | JBool _ | JInt _ | JFloat _ => True
  | JStr s => is_substring "201" s /\ is_substring "200" s
  | JArr l => In (JStr "201") l /\ In (JStr "200") l
  | JObj _ => False
  end.

Definition raising_operation (details : json) : Prop :=
  exists d r,
    details = JObj d /\ dict_get "responses" d = Some r /\ unguarded_responses r.

(** The operations the loop body deletes the ["200"] of, in words. *)
Definition removable_operation (details : json) : Prop :=
  exists d rs r200,
    details = JObj d /\
    dict_get "responses" d = Some (JObj rs) /\
    dict_mem "201" rs = true /\
    dict_get "200" rs = Some (JObj r200) /\
    empty_content
      match dict_get "content" r200 with Some c => c | None => JObj [] end.

(** The documents the traversal gets through. *)
Definition well_shaped (spec : json) : Prop :=
  exists top,
    spec = JObj top /\
    forall paths, dict_get "paths" top = Some paths ->
      exists ps,
        paths = JObj ps /\
        forall p methods, In (p, methods) ps ->
          exists ms,
            methods = JObj ms /\
            forall m details, In (m, details) ms -> ~ raising_operation details.

(** The operation has a responses dict with a ["200"] key. *)
Definition has_200 (details : json) : bool :=
  match details with
  | JObj d =>
      match dict_get "responses" d with
      | Some (JObj rs) => dict_mem "200" rs
      | _ => false
      end
  | _ => false
  end.

(** How many operations of the document have a ["200"] response. *)
Definition count_200 (spec : json) : nat :=
  List.length (filter (fun op => has_200 (op_details op)) (operations spec)).

(** Where in the document the traversal goes: the path and the method of
    each operation, in order. *)
Definition traversal (spec : json) : list (string * string) :=
  map (fun op => (op_path op, op_method op)) (operations spec).

Section Traces.

Variable upper : string -> string.
Variable can_encode : string -> bool.


(** Stdout can encode the removal line of every deletion. *)
Definition printable (spec : json) : Prop :=
  forall op, In op (removals spec) ->
    encodable can_encode (removed_line upper (op_method op) (op_path op)) = true.

End Traces.


Definition world_unwritable (src : source) : world := mkWorld src None false [].

(** A stdout that encodes ASCII only. *)
Definition ascii_only (line : string) : bool := false.

(** The lone surrogate U+D800, which [json.load] builds from its escape and
    no strict encoding of stdout encodes. *)
Definition surrogate : string :=
  String (ascii_of_nat 237) (String (ascii_of_nat 160)
    (String (ascii_of_nat 128) EmptyString)).

(** A well-shaped document with a removable ["200"] on a path that cannot
    be printed. *)
Definition doc_surrogate_path : json :=
  JObj [("paths", JObj [("/" ++ surrogate, JObj [("post", op_with_200 (JObj []))])])].

(** ** Dictionary facts *)

Lemma dict_get_set_same (k : string) (v : json) (d : dict) :
  dict_get k (dict_set k v d) = Some v.
Proof.
  induction d as [|[k' v'] rest IH]; simpl.
  - now rewrite String.eqb_refl.
  - destruct (String.eqb k' k) eqn:E; simpl.
    + now rewrite String.eqb_refl.
    + now rewrite E.
Qed.

Lemma dict_get_set_other (k k' : string) (v : json) (d : dict) :
  k' <> k -> dict_get k' (dict_set k v d) = dict_get k' d.
Proof.
  intros Hne. induction d as [|[k0 v0] rest IH]; simpl.
  - destruct (String.eqb k k') eqn:E; [|reflexivity].
    apply String.eqb_eq in E. congruence.
  - destruct (String.eqb k0 k) eqn:E; simpl.
    + apply String.eqb_eq in E. subst k0.
      destruct (String.eqb k k') eqn:E'; [|reflexivity].
      apply String.eqb_eq in E'. congruence.
    + now rewrite IH.
Qed.

Lemma dict_set_get_id (k : string) (v : json) (d : dict) :
  dict_get k d = Some v -> dict_set k v d = d.
Proof.
  induction d as [|[k0 v0] rest IH]; simpl; [discriminate|].
  destruct (String.eqb k0 k) eqn:E; intros H.
  - apply String.eqb_eq in E. congruence.
  - now rewrite IH.
Qed.

Lemma dict_set_set (k : string) (v v' : json) (d : dict) :
  dict_set k v (dict_set k v' d) = dict_set k v d.
Proof.
  induction d as [|[k0 v0] rest IH]; simpl.
  - now rewrite String.eqb_refl.
  - destruct (String.eqb k0 k) eqn:E; simpl.
    + now rewrite String.eqb_refl.
    + now rewrite E, IH.
Qed.

Lemma keys_dict_set (k : string) (v x : json) (d : dict) :
  dict_get k d = Some x -> keys (dict_set k v d) = keys d.
Proof.
  induction d as [|[k0 v0] rest IH]; simpl; [discriminate|].
  destruct (String.eqb k0 k) eqn:E; intros H; simpl.
  - apply String.eqb_eq in E. now subst.
  - f_equal. now apply IH.
Qed.

Lemma dict_get_del_same (k : string) (d : dict) :
  dict_get k (dict_del k d) = None.
Proof.
  induction d as [|[k0 v0] rest IH]; simpl; [reflexivity|].
  destruct (String.eqb k0 k) eqn:E; simpl; [assumption|].
  now rewrite E.
Qed.

Lemma dict_get_del_other (k k' : string) (d : dict) :
  k' <> k -> dict_get k' (dict_del k d) = dict_get k' d.
Proof.
  intros Hne. induction d as [|[k0 v0] rest IH]; simpl; [reflexivity|].
  destruct (String.eqb k0 k) eqn:E; simpl.
  - apply String.eqb_eq in E. subst k0.
    destruct (String.eqb k k') eqn:E'; [|assumption].
    apply String.eqb_eq in E'. congruence.
  - now rewrite IH.
Qed.

(** ** The loop body, run *)

Section Properties.

Variable upper : string -> string.
Variable can_encode : string -> bool.

(** A line of ASCII characters is printed whatever stdout is; the summary
    line is one. *)
Lemma is_ascii_app (a b : string) :
  is_ascii (a ++ b) = is_ascii a && is_ascii b.
Proof.
  induction a as [|c a IH]; [reflexivity|].
  cbn. now rewrite IH, andb_assoc.
Qed.

Lemma is_ascii_digits (d : Decimal.uint) :
  is_ascii (NilEmpty.string_of_uint d) = true.
Proof. induction d; cbn; trivial. Qed.

Lemma is_ascii_str_of_nat (n : nat) : is_ascii (str_of_nat n) = true.
Proof.
  unfold str_of_nat, NilZero.string_of_uint.
  destruct (Nat.to_uint n) eqn:E; try reflexivity;
    rewrite <- E; apply is_ascii_digits.
Qed.

Lemma encodable_summary_line (n : nat) :
  encodable can_encode (summary_line n) = true.
Proof.
  unfold encodable, summary_line.
  now rewrite !is_ascii_app, is_ascii_str_of_nat.
Qed.

(** One round of the inner loop: a deletion with its count and its line,
    a deletion with its count and an exception in place of the line, an
    exception with the state as it was, or nothing at all. *)
Lemma process_method_run (path method : string) (details : json) (st : state) :
  process_method upper can_encode path method details st =
    if removes details then
      if encodable can_encode (removed_line upper method path) then
        (inr (without_200 details),
         mkState (S (count st)) (stdout st ++ [removed_line upper method path]))
      else (inl UnicodeEncodeError, mkState (S (count st)) (stdout st))
    else match op_error details with
         | Some e => (inl e, st)
         | None => (inr details, st)
         end.
Proof.
  destruct details as [| | | | | |d]; try reflexivity.
  unfold process_method, removes, without_200, op_error.
  remember (removed_line upper method path) as line.
  destruct (dict_get "responses" d) as [responses|]; [|reflexivity].
  destruct responses as [| | | |s|l|rs]; try reflexivity.
  - cbn. unfold bind, lift, ret, raise. cbn.
    destruct (str_contains "201" s); cbn; [|reflexivity].
    destruct (str_contains "200" s); reflexivity.
  - cbn. unfold bind, lift, ret, raise. cbn.
    destruct (existsb (eq_str "201") l); cbn; [|reflexivity].
    destruct (existsb (eq_str "200") l); reflexivity.
  - cbn. unfold bind, lift, ret, raise, dict_mem. cbn.
    destruct (dict_get "201" rs); cbn; [|reflexivity].
    destruct (dict_get "200" rs) as [r200|]; cbn; [|reflexivity].
    destruct r200; try reflexivity.
    destruct (removal_condition _); [|reflexivity].
    unfold print. cbn.
    destruct (encodable can_encode line); reflexivity.
Qed.

Lemma advance_nil (st : state) : advance upper [] st = st.
Proof.
  destruct st as [c out]. unfold advance. cbn.
  now rewrite Nat.add_0_r, app_nil_r.
Qed.

Lemma advance_app (a b : list operation) (st : state) :
  advance upper (a ++ b) st = advance upper b (advance upper a st).
Proof.
  unfold advance, removal_lines. cbn.
  now rewrite length_app, map_app, Nat.add_assoc, app_assoc.
Qed.

Lemma process_method_ok path method details st details' st' :
  process_method upper can_encode path method details st = (inr details', st') ->
  details' = fixed details /\ st' = advance upper (removal_at path method details) st.
Proof.
  rewrite process_method_run. unfold fixed, removal_at.
  destruct (removes details).
  - destruct (encodable can_encode _); [|discriminate].
    intros H. inversion H; subst. split; [reflexivity|].
    unfold advance. cbn. now rewrite Nat.add_1_r.
  - destruct (op_error details); intros H; inversion H; subst.
    now rewrite advance_nil.
Qed.

(** *** Loops over the entries of a dict *)

Section Loops.

Variable body : string -> json -> M json.

(** A loop whose rounds succeed only with the value [f k v] and the
    deletions [g k v] succeeds only with all of them, in order. *)
Lemma for_items_ok (f : string -> json -> json)
    (g : string -> json -> list operation) :
  (forall k v st v' st',
      body k v st = (inr v', st') -> v' = f k v /\ st' = advance upper (g k v) st) ->
  forall items st items' st',
    for_items body items st = (inr items', st') ->
    items' = map (fun kv => (fst kv, f (fst kv) (snd kv))) items /\
    st' = advance upper (flat_map (fun kv => g (fst kv) (snd kv)) items) st.
Proof.
  intros Hbody. induction items as [|[k v] rest IH]; intros st items' st'.
  - cbn. intros H. inversion H; subst. now rewrite advance_nil.
  - cbn. unfold bind.
    destruct (body k v st) as [[e|v1] st1] eqn:E1; [discriminate|].
    destruct (for_items body rest st1) as [[e|rest1] st2] eqn:E2; [discriminate|].
    unfold ret. intros H. inversion H; subst.
    apply Hbody in E1 as [-> ->]. apply IH in E2 as [-> ->].
    now rewrite advance_app.
Qed.

(** A loop all of whose rounds succeed succeeds. *)
Lemma for_items_total (items : dict) :
  (forall k v, In (k, v) items ->
     forall st, exists v' st', body k v st = (inr v', st')) ->
  forall st, exists items' st', for_items body items st = (inr items', st').
Proof.
  induction items as [|[k v] rest IH]; intros Hall st.
  - cbn. now eexists _, _.
  - cbn. unfold bind.
    destruct (Hall k v (or_introl eq_refl) st) as (v' & st1 & ->).
    destruct (IH (fun k0 v0 H => Hall k0 v0 (or_intror H)) st1) as (r & st2 & ->).
    now eexists _, _.
Qed.

(** A loop with a round that always raises raises. *)
Lemma for_items_raises (items : dict) (k : string) (v : json) :
  In (k, v) items ->
  (forall st, exists e st', body k v st = (inl e, st')) ->
  forall st, exists e st', for_items body items st = (inl e, st').
Proof.
  intros Hin Hbad. induction items as [|[k0 v0] rest IH]; [destruct Hin|].
  intros st. cbn. unfold bind.
  destruct Hin as [Heq|Hin].
  - inversion Heq; subst. destruct (Hbad st) as (e & st1 & ->). now eexists _, _.
  - destruct (body k0 v0 st) as [[e|v1] st1]; [now eexists _, _|].
    destruct (IH Hin st1) as (e & st2 & ->). now eexists _, _.
Qed.

End Loops.

(** *** The inner and the outer loop *)

Lemma removals_at_filter (path : string) (ms : dict) :
  flat_map (fun kv => removal_at path (fst kv) (snd kv)) ms =
  filter (fun op => removes (op_details op)) (operations_at path (JObj ms)).
Proof.
  unfold operations_at, removal_at. cbn.
  induction ms as [|[k v] rest IH]; [reflexivity|]. cbn.
  destruct (removes v); cbn; now rewrite IH.
Qed.

Lemma process_path_run (path : string) (methods : json) (st : state) :
  process_path upper can_encode path methods st =
    match methods with
    | JObj ms =>
        match for_items (process_method upper can_encode path) ms st with
        | (inl e, st') => (inl e, st')
        | (inr ms', st') => (inr (JObj ms'), st')
        end
    | _ => (inl AttributeError, st)
    end.
Proof.
  destruct methods; reflexivity.
Qed.

Lemma process_path_ok path methods st methods' st' :
  process_path upper can_encode path methods st = (inr methods', st') ->
  methods' = fixed_methods methods /\
  st' = advance upper
          (filter (fun op => removes (op_details op)) (operations_at path methods)) st.
Proof.
  rewrite process_path_run.
  destruct methods as [| | | | | |ms]; try discriminate.
  destruct (for_items _ ms st) as [[e|ms'] st1] eqn:E; [discriminate|].
  intros H. inversion H; subst.
  apply (for_items_ok _ (fun _ => fixed) (removal_at path)) in E as [-> ->].
  - now rewrite removals_at_filter.
  - intros k v s v' s'. apply process_method_ok.
Qed.

Lemma filter_flat_map {A B : Type} (p : B -> bool) (f : A -> list B) (l : list A) :
  flat_map (fun a => filter p (f a)) l = filter p (flat_map f l).
Proof.
  induction l as [|a l IH]; [reflexivity|].
  cbn. now rewrite filter_app, IH.
Qed.

Lemma normalize_run (spec : json) (st : state) :
  normalize upper can_encode spec st =
    match spec with
    | JObj top =>
        match dict_get "paths" top with
        | Some (JObj ps) =>
            match for_items (process_path upper can_encode) ps st with
            | (inl e, st') => (inl e, st')
            | (inr ps', st') => (inr (JObj (dict_set "paths" (JObj ps') top)), st')
            end
        | Some _ => (inl AttributeError, st)
        | None => (inr spec, st)
        end
    | _ => (inl AttributeError, st)
    end.
Proof.
  destruct spec as [| | | | | |top]; try reflexivity.
  unfold normalize.
  destruct (dict_get "paths" top) as [paths|]; [|reflexivity].
  destruct paths; reflexivity.
Qed.

(** The pass, when it ends well, has built [fixed_spec] and has counted and
    printed [removals]. *)
Lemma normalize_ok (spec : json) (st : state) (spec' : json) (st' : state) :
  normalize upper can_encode spec st = (inr spec', st') ->
  spec' = fixed_spec spec /\ st' = advance upper (removals spec) st.
Proof.
  rewrite normalize_run. unfold fixed_spec, removals, operations, paths_of.
  destruct spec as [| | | | | |top]; try discriminate.
  destruct (dict_get "paths" top) as [paths|].
  - destruct paths as [| | | | | |ps]; try discriminate.
    destruct (for_items _ ps st) as [[e|ps'] st1] eqn:E; [discriminate|].
    intros H. inversion H; subst.
    apply (for_items_ok _ (fun _ => fixed_methods)
             (fun p ms => filter (fun op => removes (op_details op))
                            (operations_at p ms))) in E as [-> ->].
    + now rewrite filter_flat_map.
    + intros k v s v' s'. apply process_path_ok.
  - intros H. inversion H; subst. cbn. now rewrite advance_nil.
Qed.

(** ** The removal condition *)

Lemma removal_condition_iff (content : json) :
  removal_condition content = true <-> empty_content content.
Proof.
  unfold removal_condition, empty_content, empty_application_json. split.
  - intros H. apply orb_true_iff in H as [H|H].
    + left. now apply negb_true_iff.
    + right. destruct content as [| | | | | |c]; try discriminate.
      destruct (dict_get "application/json" c) as [schema|] eqn:E; [|discriminate].
      exists c, schema. repeat split; trivial. now apply negb_true_iff.
  - intros [H|(c & schema & -> & Hget & H)]; apply orb_true_iff.
    + left. now apply negb_true_iff.
    + right. rewrite Hget. now apply negb_true_iff.
Qed.

(** C1.  An operation whose responses dict has a ["201"] key and a
    dict-valued ["200"]: the loop body deletes the ["200"] entry and adds
    one to the count exactly when the content of the ["200"] (an empty dict
    when the key is absent) is falsy or is a dict whose
    ["application/json"] value is falsy; it then prints the line, or dies
    at [print] when stdout cannot encode it.  Otherwise it changes
    nothing. *)
Theorem C1_removed_exactly_when_content_empty
    (path method : string) (d rs r200 : dict) (st : state) :
  dict_get "responses" d = Some (JObj rs) ->
  dict_mem "201" rs = true ->
  dict_get "200" rs = Some (JObj r200) ->
  let content :=
    match dict_get "content" r200 with Some c => c | None => JObj [] end in
  (empty_content content ->
   (encodable can_encode (removed_line upper method path) = true ->
    process_method upper can_encode path method (JObj d) st =
      (inr (JObj (dict_set "responses" (JObj (dict_del "200" rs)) d)),
       mkState (S (count st)) (stdout st ++ [removed_line upper method path]))) /\
   (encodable can_encode (removed_line upper method path) = false ->
    process_method upper can_encode path method (JObj d) st =
      (inl UnicodeEncodeError, mkState (S (count st)) (stdout st))) /\
   dict_get "200" (dict_del "200" rs) = None) /\
  (~ empty_content content ->
   process_method upper can_encode path method (JObj d) st = (inr (JObj d), st)).
Proof.
  intros Hresp H201 H200 content.
  assert (Hrem : removes (JObj d) = removal_condition content).
  { unfold removes. now rewrite Hresp, H201, H200. }
  rewrite process_method_run, Hrem. split.
  - intros He. apply removal_condition_iff in He. rewrite He.
    split; [|split].
    + intros ->. unfold without_200. now rewrite Hresp.
    + now intros ->.
    + apply dict_get_del_same.
  - intros Hne. destruct (removal_condition content) eqn:E.
    + exfalso. apply Hne. now apply removal_condition_iff.
    + unfold op_error. now rewrite Hresp.
Qed.

Lemma dict_del_set_same (k : string) (v x : json) (d : dict) :
  dict_get k d = Some x -> dict_del k (dict_set k v d) = dict_del k d.
Proof.
  induction d as [|[k0 v0] rest IH]; cbn; [discriminate|].
  destruct (String.eqb k0 k) eqn:E; intros H; cbn.
  - rewrite String.eqb_refl. cbn. reflexivity.
  - rewrite E. cbn. f_equal. now apply IH.
Qed.

(** C9.  When the content of the ["200"] is present and is a falsy value
    that is not a dict (null, false, zero, the empty string, the empty
    array), the ["200"] entry is deleted, with the very outcome the same
    operation has when the content is absent or an empty dict; the outcome
    is written out for a line that stdout can encode. *)
Theorem C9_falsy_content_removed
    (path method : string) (d rs r200 : dict) (content : json) (st : state) :
  dict_get "responses" d = Some (JObj rs) ->
  dict_mem "201" rs = true ->
  dict_get "200" rs = Some (JObj r200) ->
  dict_get "content" r200 = Some content ->
  In content falsy_scalars ->
  encodable can_encode (removed_line upper method path) = true ->
  let removed :=
    (inr (JObj (dict_set "responses" (JObj (dict_del "200" rs)) d)),
     mkState (S (count st)) (stdout st ++ [removed_line upper method path])) in
  process_method upper can_encode path method (JObj d) st = removed /\
  forall r : dict,
    dict_get "content" r = None \/ dict_get "content" r = Some (JObj []) ->
    process_method upper can_encode path method
      (JObj (dict_set "responses" (JObj (dict_set "200" (JObj r) rs)) d)) st
    = removed.
Proof.
  intros Hresp H201 H200 Hc Hin Henc removed. subst removed. split.
  - rewrite process_method_run, Henc. unfold removes, without_200, get_content.
    rewrite Hresp, H201, H200, Hc.
    assert (Hf : removal_condition content = true).
    { unfold removal_condition.
      cbn in Hin. repeat (destruct Hin as [<-|Hin]; [reflexivity|]). destruct Hin. }
    now rewrite Hf.
  - intros r Hr. rewrite process_method_run, Henc.
    unfold removes, without_200, get_content.
    rewrite dict_get_set_same.
    assert (H201' : dict_mem "201" (dict_set "200" (JObj r) rs) = true).
    { unfold dict_mem in *. rewrite dict_get_set_other; [assumption|discriminate]. }
    rewrite H201', dict_get_set_same.
    assert (Hf : removal_condition
                   match dict_get "content" r with
                   | Some c => c | None => JObj [] end = true).
    { destruct Hr as [-> | ->]; reflexivity. }
    rewrite Hf. cbn.
    now rewrite dict_set_set, (dict_del_set_same _ _ _ _ H200).
Qed.

(** ** What the pass leaves alone *)

(** Entry by entry, a loop relates what it read to what it left. *)
Lemma for_items_rel (body : string -> json -> M json) (R : json -> json -> Prop) :
  (forall k v st v' st', body k v st = (inr v', st') -> R v v') ->
  forall items st items' st',
    for_items body items st = (inr items', st') -> entries_frame R items items'.
Proof.
  intros Hbody. induction items as [|[k v] rest IH]; intros st items' st'; cbn.
  - intros H. inversion H. constructor.
  - unfold bind.
    destruct (body k v st) as [[e|v1] st1] eqn:E1; [discriminate|].
    destruct (for_items body rest st1) as [[e|rest1] st2] eqn:E2; [discriminate|].
    intros H. inversion H; subst. constructor.
    + split; [reflexivity|]. eapply Hbody, E1.
    + eapply IH, E2.
Qed.

Lemma removes_inv (details : json) :
  removes details = true ->
  exists d rs r200,
    details = JObj d /\ dict_get "responses" d = Some (JObj rs) /\
    dict_mem "201" rs = true /\ dict_get "200" rs = Some (JObj r200) /\
    removal_condition (get_content r200) = true.
Proof.
  unfold removes.
  destruct details as [| | | | | |d]; try discriminate.
  destruct (dict_get "responses" d) as [[| | | | | |rs]|] eqn:Hresp;
    try discriminate.
  intros H. apply andb_true_iff in H as [H201 H].
  destruct (dict_get "200" rs) as [[| | | | | |r200]|] eqn:H200;
    try discriminate.
  now exists d, rs, r200.
Qed.

Lemma process_method_frame path method details st details' st' :
  process_method upper can_encode path method details st = (inr details', st') ->
  operation_frame details details'.
Proof.
  intros H. apply process_method_ok in H as [-> _]. unfold fixed.
  destruct (removes details) eqn:E; [|now left].
  destruct (removes_inv _ E) as (d & rs & r200 & -> & Hresp & H201 & H200 & Hc).
  right. exists d, rs, (dict_del "200" rs).
  unfold without_200. rewrite Hresp. repeat split; trivial.
  - eapply keys_dict_set, Hresp.
  - intros k Hk. now apply dict_get_set_other.
  - intros k Hk. now apply dict_get_del_other.
  - right. repeat split; trivial. now exists r200.
Qed.

Lemma process_path_frame path methods st methods' st' :
  process_path upper can_encode path methods st = (inr methods', st') ->
  path_frame methods methods'.
Proof.
  rewrite process_path_run.
  destruct methods as [| | | | | |ms]; try discriminate.
  destruct (for_items _ ms st) as [[e|ms'] st1] eqn:E; [discriminate|].
  intros H. inversion H; subst. exists ms, ms'. repeat split.
  eapply for_items_rel, E. intros k v s v' s'. apply process_method_frame.
Qed.

(** C2.  The document the pass returns differs from the one it was given
    only where a ["200"] entry meeting the removal condition was deleted
    next to a ["201"]: the top-level keys and all their values but that of
    ["paths"], the path entries, the method entries, the keys of every
    operation and all their values but that of ["responses"], and every
    entry of every responses dict but ["200"] are the same. *)
Theorem C2_only_removable_200_entries_change
    (spec : json) (st : state) (spec' : json) (st' : state) :
  normalize upper can_encode spec st = (inr spec', st') -> spec_frame spec spec'.
Proof.
  rewrite normalize_run.
  destruct spec as [| | | | | |top]; try discriminate.
  destruct (dict_get "paths" top) as [paths|] eqn:Hp.
  - destruct paths as [| | | | | |ps]; try discriminate.
    destruct (for_items _ ps st) as [[e|ps'] st1] eqn:E; [discriminate|].
    intros H. inversion H; subst.
    exists top, (dict_set "paths" (JObj ps') top). repeat split.
    + eapply keys_dict_set, Hp.
    + intros k Hk. now apply dict_get_set_other.
    + rewrite Hp. exists ps, ps'. repeat split.
      * apply dict_get_set_same.
      * eapply for_items_rel, E. intros k v s v' s'. apply process_path_frame.
  - intros H. inversion H; subst. exists top, top. repeat split. now rewrite Hp.
Qed.

(** ** Running the pass again *)

Lemma for_items_again (body : string -> json -> M json) :
  (forall k v st v' st',
      body k v st = (inr v', st') -> forall st0, body k v' st0 = (inr v', st0)) ->
  forall items st items' st',
    for_items body items st = (inr items', st') ->
    forall st0, for_items body items' st0 = (inr items', st0).
Proof.
  intros Hbody. induction items as [|[k v] rest IH]; intros st items' st'; cbn.
  - intros H st0. now inversion H.
  - unfold bind.
    destruct (body k v st) as [[e|v1] st1] eqn:E1; [discriminate|].
    destruct (for_items body rest st1) as [[e|rest1] st2] eqn:E2; [discriminate|].
    intros H st0. inversion H; subst. cbn. unfold bind.
    now rewrite (Hbody _ _ _ _ _ E1 st0), (IH _ _ _ E2 st0).
Qed.

Lemma without_200_settled (details : json) :
  removes details = true ->
  removes (without_200 details) = false /\ op_error (without_200 details) = None.
Proof.
  intros H. destruct (removes_inv _ H) as (d & rs & r200 & -> & Hresp & _).
  unfold without_200. rewrite Hresp. unfold removes, op_error.
  rewrite dict_get_set_same, dict_get_del_same.
  now rewrite andb_false_r.
Qed.

Lemma process_method_again path method details st details' st' :
  process_method upper can_encode path method details st = (inr details', st') ->
  forall st0, process_method upper can_encode path method details' st0 = (inr details', st0).
Proof.
  rewrite process_method_run. intros H st0. rewrite process_method_run.
  destruct (removes details) eqn:E.
  - destruct (encodable can_encode _); [|discriminate].
    inversion H; subst.
    destruct (without_200_settled _ E) as [-> ->]. reflexivity.
  - destruct (op_error details) eqn:Ee; inversion H; subst.
    now rewrite E, Ee.
Qed.

Lemma process_path_again path methods st methods' st' :
  process_path upper can_encode path methods st = (inr methods', st') ->
  forall st0, process_path upper can_encode path methods' st0 = (inr methods', st0).
Proof.
  rewrite process_path_run.
  destruct methods as [| | | | | |ms]; try discriminate.
  destruct (for_items _ ms st) as [[e|ms'] st1] eqn:E; [discriminate|].
  intros H st0. inversion H; subst. rewrite process_path_run.
  rewrite (for_items_again _ (process_method_again path) _ _ _ _ E st0).
  reflexivity.
Qed.

(** C3.  The pass is idempotent: run on the document a first run returned,
    it deletes nothing, counts nothing, prints nothing and returns that
    document. *)
Theorem C3_second_pass_changes_nothing
    (spec : json) (st : state) (spec' : json) (st' : state) :
  normalize upper can_encode spec st = (inr spec', st') ->
  forall st0, normalize upper can_encode spec' st0 = (inr spec', st0).
Proof.
  rewrite normalize_run.
  destruct spec as [| | | | | |top]; try discriminate.
  destruct (dict_get "paths" top) as [paths|] eqn:Hp.
  - destruct paths as [| | | | | |ps]; try discriminate.
    destruct (for_items _ ps st) as [[e|ps'] st1] eqn:E; [discriminate|].
    intros H st0. inversion H; subst.
    rewrite normalize_run, dict_get_set_same.
    rewrite (for_items_again _ process_path_again _ _ _ _ E st0).
    now rewrite dict_set_set.
  - intros H st0. inversion H; subst. now rewrite normalize_run, Hp.
Qed.

(** ** Runs that delete nothing *)

Lemma has_both_removes (details : json) :
  has_both details = false -> removes details = false.
Proof.
  unfold has_both, removes, dict_mem.
  destruct details as [| | | | | |d]; trivial.
  destruct (dict_get "responses" d) as [[| | | | | |rs]|]; trivial.
  destruct (dict_get "201" rs); trivial.
  now destruct (dict_get "200" rs).
Qed.

Lemma process_method_idle path method details st :
  removes details = false ->
  process_method upper can_encode path method details st = (inr details, st) \/
  exists e, process_method upper can_encode path method details st = (inl e, st).
Proof.
  intros H. rewrite process_method_run, H.
  destruct (op_error details) as [e|]; [right; now exists e | now left].
Qed.

(** A loop whose rounds change nothing changes nothing. *)
Lemma for_items_idle (body : string -> json -> M json) (items : dict) :
  (forall k v, In (k, v) items ->
     forall st, body k v st = (inr v, st) \/ exists e, body k v st = (inl e, st)) ->
  forall st, for_items body items st = (inr items, st) \/
             exists e, for_items body items st = (inl e, st).
Proof.
  induction items as [|[k v] rest IH]; intros Hall st; [now left|].
  cbn. unfold bind.
  destruct (Hall k v (or_introl eq_refl) st) as [-> | [e ->]];
    [|right; now exists e].
  destruct (IH (fun k0 v0 H => Hall k0 v0 (or_intror H)) st) as [-> | [e ->]];
    [now left | right; now exists e].
Qed.

Lemma in_operations (top ps ms : dict) (p m : string) (d : json) :
  dict_get "paths" top = Some (JObj ps) ->
  In (p, JObj ms) ps -> In (m, d) ms ->
  In (mkOp p m d) (operations (JObj top)).
Proof.
  intros Hp Hps Hms. unfold operations, paths_of. rewrite Hp.
  apply in_flat_map. exists (p, JObj ms). split; [assumption|].
  unfold operations_at. cbn.
  change (mkOp p m d) with ((fun kv => mkOp p (fst kv) (snd kv)) (m, d)).
  now apply in_map.
Qed.

(** C5.  When no operation has both a ["201"] and a ["200"] in its
    responses, the pass deletes nothing: it returns the document it was
    given, or raises, and in both cases the count and the output are as
    they were.  A document without ["paths"] is such a document, and on it
    the pass does return. *)
Theorem C5_nothing_to_remove (spec : json) (st : state) :
  (forall op, In op (operations spec) -> has_both (op_details op) = false) ->
  (normalize upper can_encode spec st = (inr spec, st) \/
   exists e, normalize upper can_encode spec st = (inl e, st)) /\
  (forall top, spec = JObj top -> dict_get "paths" top = None ->
               normalize upper can_encode spec st = (inr spec, st)).
Proof.
  intros Hnone. split.
  - rewrite normalize_run.
    destruct spec as [| | | | | |top]; try (right; now exists AttributeError).
    destruct (dict_get "paths" top) as [paths|] eqn:Hp; [|now left].
    destruct paths as [| | | | | |ps]; try (right; now exists AttributeError).
    destruct (for_items_idle (process_path upper can_encode) ps) with (st := st)
      as [-> | [e ->]].
    + intros p methods Hin s. rewrite process_path_run.
      destruct methods as [| | | | | |ms]; try (right; now exists AttributeError).
      destruct (for_items_idle (process_method upper can_encode p) ms) with (st := s)
        as [-> | [e ->]]; [|now left|right; now exists e].
      intros m d Hm s'. apply process_method_idle, has_both_removes.
      apply (Hnone (mkOp p m d)). eapply in_operations; eassumption.
    + left. now rewrite (dict_set_get_id _ _ _ Hp).
    + right. now exists e.
  - intros top -> Hp. now rewrite normalize_run, Hp.
Qed.

(** ** Runs that raise and runs that do not *)

(** The summary line is ASCII, so the last [print] does not fail. *)
Lemma main_run (w : world) :
  main upper can_encode w =
    match swagger_json_new w with
    | NoFile => (Some OSError, w)
    | BadJSON e => (Some e, w)
    | Loaded spec =>
        match normalize upper can_encode spec (mkState 0 (console w)) with
        | (inl e, st) => (Some e, with_console (stdout st) w)
        | (inr spec', st) =>
            if swagger_json_writable w then
              (None, mkWorld (swagger_json_new w) (Some spec') true
                       (stdout st ++ [summary_line (count st)]))
            else (Some OSError, with_console (stdout st) w)
        end
    end.
Proof.
  unfold main. destruct (swagger_json_new w) as [|e0|spec]; trivial.
  destruct (normalize upper can_encode spec _) as [[e|spec'] st']; trivial.
  unfold print. now rewrite encodable_summary_line.
Qed.

Lemma process_method_guarded path method details st :
  (forall d r, details = JObj d -> dict_get "responses" d = Some r ->
               is_dict r = true) ->
  (removes details = true ->
   encodable can_encode (removed_line upper method path) = true) ->
  exists details' st', process_method upper can_encode path method details st = (inr details', st').
Proof.
  intros Hshape Henc. rewrite process_method_run.
  destruct (removes details); [rewrite (Henc eq_refl); now eexists _, _|].
  assert (He : op_error details = None).
  { unfold op_error. destruct details as [| | | | | |d]; trivial.
    destruct (dict_get "responses" d) as [r|] eqn:Hr; trivial.
    specialize (Hshape d r eq_refl Hr). now destruct r. }
  rewrite He. now eexists _, _.
Qed.

(** C4, as the code has it.  The pass returns whenever the document is a
    dict, the value of ["paths"], when there is one, is a dict, every path
    entry is a dict, every operation that is a dict has a dict for its
    ["responses"], when it has any, and stdout can encode the line of every
    deletion.  Nothing is asked of the method entries themselves, of the
    ["200"] value or of its ["content"]: the type guards skip those that
    are not dicts. *)
Theorem C4_guarded_shapes_do_not_raise (spec : json) (st : state) :
  (exists top,
     spec = JObj top /\
     forall paths, dict_get "paths" top = Some paths ->
       exists ps, paths = JObj ps /\
         forall p methods, In (p, methods) ps ->
           exists ms, methods = JObj ms /\
             forall m d r, In (m, JObj d) ms ->
                           dict_get "responses" d = Some r -> is_dict r = true) ->
  (forall op, In op (removals spec) ->
     encodable can_encode (removed_line upper (op_method op) (op_path op)) = true) ->
  exists spec' st', normalize upper can_encode spec st = (inr spec', st').
Proof.
  intros (top & -> & Hshape) Henc. rewrite normalize_run.
  destruct (dict_get "paths" top) as [paths|] eqn:Hp; [|now eexists _, _].
  destruct (Hshape paths eq_refl) as (ps & -> & Hps).
  destruct (for_items_total (process_path upper can_encode) ps) with (st := st)
    as (ps' & st' & ->); [|now eexists _, _].
  intros p methods Hin s. rewrite process_path_run.
  destruct (Hps p methods Hin) as (ms & -> & Hms).
  destruct (for_items_total (process_method upper can_encode p) ms) with (st := s)
    as (ms' & s' & ->); [|now eexists _, _].
  intros m details Hm s0. apply process_method_guarded.
  - intros d r -> Hr. eapply Hms; eassumption.
  - intros Hrem. apply (Henc (mkOp p m details)).
    apply filter_In. split; [|assumption].
    eapply in_operations; eassumption.
Qed.

(** C6.  When [swagger.json.new] cannot be opened, or [json.load] raises
    on it, the script dies of the exception at once: nothing is printed and
    [swagger.json] is not touched. *)
Theorem C6_unreadable_input_aborts (w : world) :
  swagger_json_new w = NoFile \/ (exists e, swagger_json_new w = BadJSON e) ->
  exists e, main upper can_encode w = (Some e, w).
Proof.
  unfold main. intros [-> | [e ->]].
  - now exists OSError.
  - now exists e.
Qed.

(** C10.  A ["paths"] value that is not a dict, or a path entry that is not
    a dict, makes the script die of an exception during the traversal, and
    [swagger.json] is not written. *)
Theorem C10_unguarded_paths_levels_abort (w : world) (top : dict) (paths : json) :
  swagger_json_new w = Loaded (JObj top) ->
  dict_get "paths" top = Some paths ->
  (is_dict paths = false \/
   exists ps p methods,
     paths = JObj ps /\ In (p, methods) ps /\ is_dict methods = false) ->
  exists e w', main upper can_encode w = (Some e, w') /\ swagger_json w' = swagger_json w.
Proof.
  intros Hsrc Hp Hbad. rewrite main_run, Hsrc, normalize_run, Hp.
  destruct Hbad as [Hnd | (ps & p & methods & -> & Hin & Hnd)].
  - destruct paths; try discriminate; now eexists _, _.
  - destruct (for_items_raises (process_path upper can_encode) ps p methods Hin)
      with (st := mkState 0 (console w)) as (e & st' & ->).
    + intros s. rewrite process_path_run.
      destruct methods; try discriminate; now eexists _, _.
    + now eexists _, _.
Qed.

(** ** What a run prints *)

(** A run that ends well has loaded a document, stored [fixed_spec] of it
    and printed the removal lines and the summary line. *)
Lemma main_ok (w w' : world) :
  main upper can_encode w = (None, w') ->
  exists spec,
    swagger_json_new w = Loaded spec /\
    swagger_json w' = Some (fixed_spec spec) /\
    console w' = (console w ++ removal_lines upper (removals spec)
                    ++ [summary_line (List.length (removals spec))])%list.
Proof.
  rewrite main_run. destruct (swagger_json_new w) as [|e0|spec]; try discriminate.
  destruct (normalize upper can_encode spec _) as [[e|spec'] st'] eqn:E; [discriminate|].
  destruct (swagger_json_writable w); [|discriminate].
  intros H. inversion H; subst. apply normalize_ok in E as [-> ->].
  exists spec. cbn. now rewrite <- app_assoc.
Qed.

(** C7, as the code has it.  A run that ends without an exception prints,
    after what was on the console, one line [Removed empty 200 from
    <METHOD> <path>] for each deleted response, in the order of the
    traversal, and then the one line [Fixed <count> endpoints. Saved to
    swagger.json], whose count is the number of deletions. *)
Theorem C7_lines_of_a_successful_run (w w' : world) :
  main upper can_encode w = (None, w') ->
  exists spec,
    swagger_json_new w = Loaded spec /\
    swagger_json w' = Some (fixed_spec spec) /\
    console w' =
      (console w
       ++ map (fun op => ("Removed empty 200 from " ++ upper (op_method op)
                            ++ " " ++ op_path op)%string) (removals spec)
       ++ [("Fixed " ++ str_of_nat (List.length (removals spec))
              ++ " endpoints. Saved to swagger.json")%string])%list.
Proof. apply main_ok. Qed.

(** C8, as the code has it.  The program reports the removal count, in the
    last line it prints, and nothing about the number of operations it has
    visited: two runs that delete at the same methods and paths print the
    same lines, whatever else their documents hold. *)
Theorem C8_only_the_removal_count_is_reported (w w' : world) (spec : json) :
  main upper can_encode w = (None, w') ->
  swagger_json_new w = Loaded spec ->
  last (console w') EmptyString = summary_line (List.length (removals spec)) /\
  forall (v v' : world) (spec2 : json),
    main upper can_encode v = (None, v') ->
    swagger_json_new v = Loaded spec2 ->
    console v = console w ->
    map (fun op => (op_method op, op_path op)) (removals spec2) =
    map (fun op => (op_method op, op_path op)) (removals spec) ->
    console v' = console w'.
Proof.
  intros Hw Hsrc.
  destruct (main_ok _ _ Hw) as (s & Hs & _ & Hout).
  rewrite Hsrc in Hs. inversion Hs; subst s. split.
  - now rewrite Hout, app_assoc, last_last.
  - intros v v' spec2 Hv Hsrc2 Hcon Hsame.
    destruct (main_ok _ _ Hv) as (s & Hs2 & _ & Hout2).
    rewrite Hsrc2 in Hs2. inversion Hs2; subst s.
    rewrite Hout, Hout2, Hcon. unfold removal_lines.
    assert (Hlines : forall ops,
      map (fun op => removed_line upper (op_method op) (op_path op)) ops =
      map (fun mp => removed_line upper (fst mp) (snd mp))
          (map (fun op => (op_method op, op_path op)) ops)).
    { intros ops. now rewrite map_map. }
    rewrite (Hlines (removals spec2)), (Hlines (removals spec)), Hsame.
    f_equal. f_equal. f_equal. f_equal.
    rewrite <- (length_map (fun op => (op_method op, op_path op)) (removals spec2)).
    rewrite Hsame. apply length_map.
Qed.

End Properties.

(** ** Which operations make the loop body raise *)

Lemma prefix_iff (n h : string) :
  String.prefix n h = true <-> exists post, h = n ++ post.
Proof.
  revert h. induction n as [|c n IH]; intros h.
  - split; [intros _; now exists h|]. intros _. now destruct h.
  - destruct h as [|c' h]; cbn.
    + split; [discriminate | intros [post H]; discriminate H].
    + destruct (Ascii.ascii_dec c c') as [->|Hne].
      * rewrite IH. split; intros [post H]; exists post.
        -- now rewrite H.
        -- now inversion H.
      * split; [discriminate|]. intros [post H]. inversion H. congruence.
Qed.

Lemma str_contains_nil (n : string) :
  str_contains n EmptyString = String.prefix n EmptyString.
Proof.
  change (str_contains n EmptyString)
    with (if String.prefix n EmptyString then true else false).
  now destruct (String.prefix n EmptyString).
Qed.

Lemma str_contains_cons (n : string) (c : ascii) (h : string) :
  str_contains n (String c h) = String.prefix n (String c h) || str_contains n h.
Proof.
  change (str_contains n (String c h))
    with (if String.prefix n (String c h) then true else str_contains n h).
  now destruct (String.prefix n (String c h)).
Qed.

Lemma str_contains_iff (n h : string) :
  str_contains n h = true <-> is_substring n h.
Proof.
  unfold is_substring. induction h as [|c h IH].
  - rewrite str_contains_nil, prefix_iff. split.
    + intros [post H]. now exists EmptyString, post.
    + intros (pre & post & H). destruct pre; [|discriminate H]. now exists post.
  - rewrite str_contains_cons, orb_true_iff, prefix_iff, IH. split.
    + intros [[post H] | (pre & post & H)].
      * now exists EmptyString, post.
      * exists (String c pre), post. cbn. now rewrite H.
    + intros (pre & post & H). destruct pre as [|c' pre].
      * left. now exists post.
      * right. cbn in H. inversion H. now exists pre, post.
Qed.

Lemma existsb_eq_str (k : string) (l : list json) :
  existsb (eq_str k) l = true <-> In (JStr k) l.
Proof.
  rewrite existsb_exists. split.
  - intros (x & Hin & Hx). destruct x; try discriminate.
    cbn in Hx. apply String.eqb_eq in Hx. now subst.
  - intros Hin. exists (JStr k). split; [assumption|]. cbn. apply String.eqb_refl.
Qed.

Lemma op_error_raising (details : json) :
  (raising_operation details -> op_error details = Some TypeError) /\
  (~ raising_operation details -> op_error details = None).
Proof.
  unfold raising_operation, op_error. split.
  - intros (d & r & -> & Hr & Hu). rewrite Hr.
    destruct r as [| | | |s|l|rs]; cbn in Hu; trivial.
    + destruct Hu as [H1 H0].
      apply str_contains_iff in H1, H0. now rewrite H1, H0.
    + destruct Hu as [H1 H0].
      apply existsb_eq_str in H1, H0. now rewrite H1, H0.
    + destruct Hu.
  - intros Hn. destruct details as [| | | | | |d]; trivial.
    destruct (dict_get "responses" d) as [r|] eqn:Hr; trivial.
    assert (Hu : ~ unguarded_responses r).
    { intros Hu. apply Hn. now exists d, r. }
    destruct r as [| | | |s|l|rs]; cbn in Hu; trivial;
      try (exfalso; now apply Hu).
    + destruct (str_contains "201" s) eqn:E1; trivial.
      destruct (str_contains "200" s) eqn:E0; trivial.
      exfalso. apply Hu. split; now apply str_contains_iff.
    + destruct (existsb (eq_str "201") l) eqn:E1; trivial.
      destruct (existsb (eq_str "200") l) eqn:E0; trivial.
      exfalso. apply Hu. split; now apply existsb_eq_str.
Qed.

Lemma raising_not_removed (details : json) :
  raising_operation details -> removes details = false.
Proof.
  intros (d & r & -> & Hr & Hu). unfold removes. rewrite Hr.
  now destruct r.
Qed.

Lemma removes_iff_removable (details : json) :
  removes details = true <-> removable_operation details.
Proof.
  unfold removable_operation. split.
  - intros H. destruct (removes_inv _ H) as (d & rs & r200 & -> & Hr & H1 & H0 & Hc).
    exists d, rs, r200. repeat split; trivial.
    now apply removal_condition_iff in Hc.
  - intros (d & rs & r200 & -> & Hr & H1 & H0 & Hc).
    unfold removes. rewrite Hr, H1, H0. cbn.
    now apply removal_condition_iff.
Qed.

Lemma in_operations_inv (top : dict) (op : operation) :
  In op (operations (JObj top)) ->
  exists ps ms,
    dict_get "paths" top = Some (JObj ps) /\
    In (op_path op, JObj ms) ps /\
    In (op_method op, op_details op) ms.
Proof.
  unfold operations, paths_of.
  destruct (dict_get "paths" top) as [[| | | | | |ps]|]; try (intros []).
  intros Hin. apply in_flat_map in Hin as ([p methods] & Hps & Hop).
  unfold operations_at in Hop. cbn in Hop.
  destruct methods as [| | | | | |ms]; try destruct Hop.
  apply in_map_iff in Hop as ([m d] & <- & Hm).
  exists ps, ms. now repeat split.
Qed.

Section MoreProperties.

Variable upper : string -> string.
Variable can_encode : string -> bool.

(** X1.  The loop body raises in two cases and no other.  On an operation
    that is a dict whose ["responses"] value is null, a boolean, a number,
    a string in which both ["201"] and ["200"] occur, or a list that has
    both strings as elements, it raises a [TypeError] before anything is
    counted or printed.  On an operation it deletes the ["200"] of, when
    stdout cannot encode the removal line, it raises a
    [UnicodeEncodeError] after the count and before any output. *)
Theorem X1_when_the_body_raises
    (path method : string) (details : json) (st : state) :
  (raising_operation details ->
   process_method upper can_encode path method details st = (inl TypeError, st)) /\
  (removable_operation details ->
   encodable can_encode (removed_line upper method path) = false ->
   process_method upper can_encode path method details st =
     (inl UnicodeEncodeError, mkState (S (count st)) (stdout st))) /\
  (~ raising_operation details ->
   (removable_operation details ->
    encodable can_encode (removed_line upper method path) = true) ->
   exists details' st',
     process_method upper can_encode path method details st = (inr details', st')).
Proof.
  rewrite process_method_run. split; [|split].
  - intros H. rewrite (raising_not_removed _ H).
    now rewrite (proj1 (op_error_raising details) H).
  - intros H Henc. apply removes_iff_removable in H. now rewrite H, Henc.
  - intros H Henc. rewrite (proj2 (op_error_raising details) H).
    destruct (removes details) eqn:E; [|now eexists _, _].
    rewrite (Henc (proj1 (removes_iff_removable details) E)). now eexists _, _.
Qed.

(** ** Which runs end well *)

Lemma for_items_each_ok (body : string -> json -> M json) (items : dict) :
  forall st items' st',
    for_items body items st = (inr items', st') ->
    forall k v, In (k, v) items -> exists st0 v' st1, body k v st0 = (inr v', st1).
Proof.
  induction items as [|[k0 v0] rest IH]; intros st items' st' H k v Hin;
    [destruct Hin|].
  cbn in H. unfold bind in H.
  destruct (body k0 v0 st) as [[e|v1] st1] eqn:E1; [discriminate|].
  destruct (for_items body rest st1) as [[e|rest1] st2] eqn:E2; [discriminate|].
  destruct Hin as [Heq|Hin].
  - inversion Heq; subst. now exists st, v1, st1.
  - eapply IH; eassumption.
Qed.

Lemma process_method_returns_iff path method details st :
  (exists details' st',
     process_method upper can_encode path method details st = (inr details', st')) <->
  ~ raising_operation details /\
  (removes details = true ->
   encodable can_encode (removed_line upper method path) = true).
Proof.
  rewrite process_method_run. split.
  - intros (d' & st' & H). split.
    + intros Hr.
      rewrite (raising_not_removed _ Hr), (proj1 (op_error_raising _) Hr) in H.
      discriminate H.
    + intros Hrem. rewrite Hrem in H.
      destruct (encodable can_encode _); [reflexivity|discriminate H].
  - intros [Hn Henc]. rewrite (proj2 (op_error_raising _) Hn).
    destruct (removes details); [|now eexists _, _].
    rewrite (Henc eq_refl). now eexists _, _.
Qed.

Lemma normalize_returns_iff (spec : json) (st : state) :
  (exists spec' st', normalize upper can_encode spec st = (inr spec', st')) <->
  well_shaped spec /\ printable upper can_encode spec.
Proof.
  rewrite normalize_run. unfold well_shaped, printable. split.
  - intros (spec' & st' & H).
    destruct spec as [| | | | | |top]; try discriminate.
    assert (Hops : forall ps ms p m details,
              dict_get "paths" top = Some (JObj ps) ->
              In (p, JObj ms) ps -> In (m, details) ms ->
              exists s, exists d' s',
                process_method upper can_encode p m details s = (inr d', s')).
    { intros ps ms p m details Hp Hin Hm. rewrite Hp in H.
      destruct (for_items _ ps st) as [[e|ps'] st1] eqn:E; [discriminate|].
      destruct (for_items_each_ok _ _ _ _ _ E p (JObj ms) Hin)
        as (s0 & v' & s1 & Hpath).
      rewrite process_path_run in Hpath.
      destruct (for_items _ ms s0) as [[e|ms'] s2] eqn:E'; [discriminate|].
      destruct (for_items_each_ok _ _ _ _ _ E' m details Hm)
        as (s3 & d' & s4 & Hop).
      now exists s3, d', s4. }
    split.
    + exists top. split; [reflexivity|]. intros paths Hp. rewrite Hp in H.
      destruct paths as [| | | | | |ps]; try discriminate.
      exists ps. split; [reflexivity|]. intros p methods Hin.
      destruct (for_items _ ps st) as [[e|ps'] st1] eqn:E; [discriminate|].
      destruct (for_items_each_ok _ _ _ _ _ E p methods Hin) as (s0 & v' & s1 & Hpath).
      rewrite process_path_run in Hpath.
      destruct methods as [| | | | | |ms]; try discriminate.
      exists ms. split; [reflexivity|]. intros m details Hm.
      destruct (Hops ps ms p m details Hp Hin Hm) as (s & Hs).
      now apply (process_method_returns_iff p m details s).
    + intros op Hin. unfold removals in Hin. apply filter_In in Hin as [Hin Hrem].
      destruct (in_operations_inv _ _ Hin) as (ps & ms & Hp & Hps & Hms).
      destruct (Hops ps ms _ _ _ Hp Hps Hms) as (s & Hs).
      now apply (process_method_returns_iff (op_path op) (op_method op)
                   (op_details op) s).
  - intros [(top & -> & Hshape) Henc].
    destruct (dict_get "paths" top) as [paths|] eqn:Hp; [|now eexists _, _].
    destruct (Hshape paths eq_refl) as (ps & -> & Hps).
    destruct (for_items_total (process_path upper can_encode) ps) with (st := st)
      as (ps' & st' & ->); [|now eexists _, _].
    intros p methods Hin s. rewrite process_path_run.
    destruct (Hps p methods Hin) as (ms & -> & Hms).
    destruct (for_items_total (process_method upper can_encode p) ms) with (st := s)
      as (ms' & s' & ->); [|now eexists _, _].
    intros m details Hm s0. apply process_method_returns_iff. split.
    + eapply Hms, Hm.
    + intros Hrem. apply (Henc (mkOp p m details)).
      apply filter_In. split; [|assumption].
      eapply in_operations; eassumption.
Qed.

(** X2.  The script ends without an exception exactly when [json.load]
    returns a document that is a dict, whose ["paths"], if any, is a dict of
    dicts in which no operation has an unguarded responses value, stdout
    can encode the removal line of every deletion, and [swagger.json] can
    be written. *)
Theorem X2_run_ends_well_iff (w : world) :
  (exists w', main upper can_encode w = (None, w')) <->
  exists spec,
    swagger_json_new w = Loaded spec /\ well_shaped spec /\
    (forall op, In op (removals spec) ->
       encodable can_encode (removed_line upper (op_method op) (op_path op)) = true) /\
    swagger_json_writable w = true.
Proof.
  rewrite main_run. split.
  - intros (w' & H).
    destruct (swagger_json_new w) as [|e0|spec]; try discriminate.
    exists spec. split; [reflexivity|].
    destruct (normalize upper can_encode spec _) as [[e|spec'] st'] eqn:E; [discriminate|].
    assert (Hret : well_shaped spec /\ printable upper can_encode spec).
    { apply (normalize_returns_iff spec (mkState 0 (console w))).
      now exists spec', st'. }
    destruct Hret as [Hshape Hprint]. repeat split; trivial.
    now destruct (swagger_json_writable w).
  - intros (spec & -> & Hshape & Hprint & ->).
    destruct (proj2 (normalize_returns_iff spec (mkState 0 (console w)))
                (conj Hshape Hprint)) as (spec' & st' & ->).
    now eexists.
Qed.

(** ** What an aborted run leaves behind *)






(** ** The operations of the document the pass returns *)

Lemma map_flat_map {A B C : Type} (f : B -> C) (g : A -> list B) (l : list A) :
  map f (flat_map g l) = flat_map (fun a => map f (g a)) l.
Proof.
  induction l as [|a l IH]; [reflexivity|].
  cbn. now rewrite map_app, IH.
Qed.

Lemma flat_map_after_map {A B C : Type} (f : B -> list C) (g : A -> B) (l : list A) :
  flat_map f (map g l) = flat_map (fun a => f (g a)) l.
Proof.
  induction l as [|a l IH]; [reflexivity|].
  cbn. now rewrite IH.
Qed.

(** The pass works operation by operation, each on its own. *)
Lemma operations_fixed_spec (spec : json) :
  operations (fixed_spec spec) =
  map (fun op => mkOp (op_path op) (op_method op) (fixed (op_details op)))
      (operations spec).
Proof.
  unfold operations, fixed_spec, paths_of.
  destruct spec as [| | | | | |top]; try reflexivity.
  destruct (dict_get "paths" top) as [paths|] eqn:Hp; [|now rewrite Hp].
  destruct paths as [| | | | | |ps]; try (now rewrite Hp).
  rewrite dict_get_set_same, flat_map_after_map, map_flat_map.
  apply flat_map_ext. intros [p methods]. cbn.
  unfold operations_at. destruct methods; try reflexivity.
  cbn. now rewrite !map_map.
Qed.

Lemma fixed_not_removable (details : json) : removes (fixed details) = false.
Proof.
  unfold fixed. destruct (removes details) eqn:E; [|assumption].
  now apply without_200_settled.
Qed.

(** X4.  In the document the pass returns, no operation has both a ["201"]
    and a dict-valued ["200"] whose content is empty in the sense of the
    removal condition. *)
Theorem X4_no_removable_200_is_left
    (spec : json) (st : state) (spec' : json) (st' : state) :
  normalize upper can_encode spec st = (inr spec', st') ->
  forall op d rs r200,
    In op (operations spec') ->
    op_details op = JObj d ->
    dict_get "responses" d = Some (JObj rs) ->
    dict_mem "201" rs = true ->
    dict_get "200" rs = Some (JObj r200) ->
    ~ empty_content
        match dict_get "content" r200 with Some c => c | None => JObj [] end.
Proof.
  intros H op d rs r200 Hin Hd Hresp H201 H200 He.
  apply normalize_ok in H as [-> _].
  rewrite operations_fixed_spec in Hin.
  apply in_map_iff in Hin as (op0 & <- & _). cbn in Hd.
  pose proof (fixed_not_removable (op_details op0)) as Hf.
  rewrite Hd in Hf. unfold removes in Hf.
  rewrite Hresp, H201, H200 in Hf. cbn in Hf.
  apply removal_condition_iff in He. unfold get_content in Hf. congruence.
Qed.

(** ** Running the script on its own output *)

Lemma normalize_settled (spec : json) (st : state) (spec' : json) (st' : state) :
  normalize upper can_encode spec st = (inr spec', st') ->
  forall st0, normalize upper can_encode spec' st0 = (inr spec', st0).
Proof.
  rewrite normalize_run.
  destruct spec as [| | | | | |top]; try discriminate.
  destruct (dict_get "paths" top) as [paths|] eqn:Hp.
  - destruct paths as [| | | | | |ps]; try discriminate.
    destruct (for_items _ ps st) as [[e|ps'] st1] eqn:E; [discriminate|].
    intros H st0. inversion H; subst.
    rewrite normalize_run, dict_get_set_same.
    rewrite (for_items_again _ (process_path_again upper can_encode) _ _ _ _ E st0).
    now rewrite dict_set_set.
  - intros H st0. inversion H; subst. now rewrite normalize_run, Hp.
Qed.

(** X5.  The script run on the file a successful run has written (renamed
    back to [swagger.json.new]) deletes nothing: it prints the one line
    [Fixed 0 endpoints. Saved to swagger.json] and writes the same
    document again. *)
Theorem X5_second_run_reports_zero
    (w w' : world) (out : json) (v : world) :
  main upper can_encode w = (None, w') ->
  swagger_json w' = Some out ->
  swagger_json_new v = Loaded out ->
  swagger_json_writable v = true ->
  main upper can_encode v =
    (None, mkWorld (Loaded out) (Some out) true
             (console v ++ ["Fixed 0 endpoints. Saved to swagger.json"])).
Proof.
  intros Hw Hout Hv Hwr. rewrite main_run in Hw.
  destruct (swagger_json_new w) as [|e0|spec]; try discriminate.
  destruct (normalize upper can_encode spec _) as [[e|spec'] st'] eqn:E; [discriminate|].
  destruct (swagger_json_writable w); [|discriminate].
  inversion Hw; subst w'. cbn in Hout. inversion Hout; subst out.
  rewrite main_run, Hv, Hwr.
  now rewrite (normalize_settled _ _ _ _ E (mkState 0 (console v))).
Qed.

(** ** What the count counts *)

Lemma removes_has_200 (details : json) :
  removes details = true ->
  has_200 details = true /\ has_200 (fixed details) = false.
Proof.
  intros H. unfold fixed. rewrite H.
  destruct (removes_inv _ H) as (d & rs & r200 & -> & Hresp & _ & H200 & _).
  unfold without_200, has_200. rewrite Hresp, dict_get_set_same.
  unfold dict_mem. now rewrite H200, dict_get_del_same.
Qed.

Lemma count_200_fixed (ops : list operation) :
  List.length
    (filter (fun op => has_200 (op_details op))
       (map (fun op => mkOp (op_path op) (op_method op) (fixed (op_details op))) ops))
  + List.length (filter (fun op => removes (op_details op)) ops)
  = List.length (filter (fun op => has_200 (op_details op)) ops).
Proof.
  induction ops as [|op ops IH]; [reflexivity|]. cbn.
  destruct (removes (op_details op)) eqn:E.
  - destruct (removes_has_200 _ E) as [-> ->]. cbn. rewrite <- IH. lia.
  - unfold fixed at 1. rewrite E.
    destruct (has_200 (op_details op)); cbn; now rewrite <- IH.
Qed.

(** X6.  The pass visits the same paths and methods in the document it
    returns as in the one it was given, and what it adds to the count is the
    number of operations with a ["200"] response that the document has
    lost. *)
Theorem X6_count_is_the_number_of_200_lost
    (spec : json) (st : state) (spec' : json) (st' : state) :
  normalize upper can_encode spec st = (inr spec', st') ->
  traversal spec' = traversal spec /\
  count st' + count_200 spec' = count st + count_200 spec.
Proof.
  intros H. apply normalize_ok in H as [-> ->].
  unfold traversal, count_200. rewrite operations_fixed_spec. split.
  - rewrite map_map. reflexivity.
  - unfold advance, removals. cbn.
    rewrite <- (count_200_fixed (operations spec)). lia.
Qed.

(** ** A run that cannot save *)

(** X7.  When the document is well shaped and every removal line can be
    printed but [swagger.json] cannot be opened for writing, the pass is
    run to its end and every removal line is printed before the script
    dies at [open]: no summary line follows and the file is as it was, so
    the lines on the console tell of deletions that were not saved. *)
Theorem X7_unwritable_output_loses_the_work (w : world) (spec : json) :
  swagger_json_new w = Loaded spec ->
  well_shaped spec ->
  (forall op, In op (removals spec) ->
     encodable can_encode (removed_line upper (op_method op) (op_path op)) = true) ->
  swagger_json_writable w = false ->
  main upper can_encode w =
    (Some OSError,
     mkWorld (Loaded spec) (swagger_json w) false
       (console w ++ removal_lines upper (removals spec))).
Proof.
  intros Hsrc Hshape Hprint Hwr. rewrite main_run. unfold with_console.
  rewrite Hsrc, Hwr.
  destruct (proj2 (normalize_returns_iff spec (mkState 0 (console w)))
              (conj Hshape Hprint)) as (spec' & st' & E).
  rewrite E. apply normalize_ok in E as [_ ->]. reflexivity.
Qed.

End MoreProperties.

(** ** The script on the example documents *)

(** The end-to-end example of the specification. *)
Example main_doc_example :
  main ascii_upper ascii_only (world_of (Loaded doc_example)) = (None, world_after_example).
Proof. reflexivity. Qed.

Example normalize_doc_no_paths :
  normalize ascii_upper ascii_only doc_no_paths (mkState 0 []) = (inr doc_no_paths, mkState 0 []).
Proof. reflexivity. Qed.

Example normalize_doc_null_paths :
  normalize ascii_upper ascii_only doc_null_paths (mkState 0 []) = (inl AttributeError, mkState 0 []).
Proof. reflexivity. Qed.

Example normalize_doc_anomalies :
  normalize ascii_upper ascii_only doc_anomalies (mkState 0 []) = (inr doc_anomalies, mkState 0 []).
Proof. reflexivity. Qed.

(** A removable ["200"] on a path with a lone surrogate, on a stdout that
    encodes ASCII: the script dies at [print], with nothing printed and
    nothing written. *)
Example main_doc_surrogate_path :
  main ascii_upper ascii_only (world_of (Loaded doc_surrogate_path))
  = (Some UnicodeEncodeError, world_of (Loaded doc_surrogate_path)).
Proof. reflexivity. Qed.

(** A responses value that is a string is searched for substrings, one that
    is a list for elements; the subscript then fails on both. *)
Example process_method_str_responses :
  process_method ascii_upper ascii_only "/x" "get"
    (JObj [("responses", JStr "200, 201")]) (mkState 0 [])
  = (inl TypeError, mkState 0 []) /\
  process_method ascii_upper ascii_only "/x" "get"
    (JObj [("responses", JArr [JStr "201"])]) (mkState 0 [])
  = (inr (JObj [("responses", JArr [JStr "201"])]), mkState 0 []).
Proof. split; reflexivity. Qed.

(** C1 at work: an empty content dict is removed, a content with a schema
    of type object is kept. *)
Lemma C1_witness :
  process_method ascii_upper ascii_only "/x" "post"
    (op_with_200 (JObj [("content", JObj [])])) (mkState 0 [])
  = (inr (JObj [("summary", JStr "create");
                ("responses", JObj [("201", JObj [("description", JStr "Created")])])]),
     mkState 1 ["Removed empty 200 from POST /x"])
  /\
  process_method ascii_upper ascii_only "/x" "post"
    (op_with_200 (JObj [("content", JObj [("application/json", obj_type_object)])]))
    (mkState 0 [])
  = (inr (op_with_200
            (JObj [("content", JObj [("application/json", obj_type_object)])])),
     mkState 0 []).
Proof.
  split.
  - apply (C1_removed_exactly_when_content_empty ascii_upper ascii_only "/x" "post"
             (op_entries (JObj [("content", JObj [])]))
             (responses_with_200 (JObj [("content", JObj [])]))
             [("content", JObj [])] (mkState 0 []) eq_refl eq_refl eq_refl).
    + left. reflexivity.
    + reflexivity.
  - apply (C1_removed_exactly_when_content_empty ascii_upper ascii_only "/x" "post"
             (op_entries (JObj [("content", JObj [("application/json", obj_type_object)])]))
             (responses_with_200
                (JObj [("content", JObj [("application/json", obj_type_object)])]))
             [("content", JObj [("application/json", obj_type_object)])]
             (mkState 0 []) eq_refl eq_refl eq_refl).
    intros [H | (c & schema & Hc & Hget & Hs)]; [discriminate|].
    inversion Hc; subst c. cbn in Hget. inversion Hget; subst schema.
    discriminate.
Defined.

Lemma C9_witness :
  process_method ascii_upper ascii_only "/x" "post"
    (op_with_200 (JObj [("content", JNull)])) (mkState 0 [])
  = (inr (JObj [("summary", JStr "create");
                ("responses", JObj [("201", JObj [("description", JStr "Created")])])]),
     mkState 1 ["Removed empty 200 from POST /x"]).
Proof.
  exact (proj1 (C9_falsy_content_removed ascii_upper ascii_only "/x" "post"
           (op_entries (JObj [("content", JNull)]))
           (responses_with_200 (JObj [("content", JNull)]))
           [("content", JNull)] JNull (mkState 0 [])
           eq_refl eq_refl eq_refl eq_refl (or_introl eq_refl) eq_refl)).
Defined.

Lemma C2_witness : spec_frame doc_two_paths (fixed_spec doc_two_paths).
Proof.
  apply (C2_only_removable_200_entries_change ascii_upper ascii_only doc_two_paths
           (mkState 0 []) (fixed_spec doc_two_paths)
           (mkState 1 ["Removed empty 200 from POST /a"])).
  reflexivity.
Defined.

Lemma C3_witness :
  normalize ascii_upper ascii_only doc_example_fixed (mkState 0 [])
  = (inr doc_example_fixed, mkState 0 []).
Proof.
  apply (C3_second_pass_changes_nothing ascii_upper ascii_only doc_example (mkState 0 [])
           doc_example_fixed (mkState 1 ["Removed empty 200 from POST /x"])).
  reflexivity.
Defined.

(** C4 fails on a responses value that is null: [in] raises. *)
Lemma C4_counterexample :
  normalize ascii_upper ascii_only doc_null_responses (mkState 0 [])
  = (inl TypeError, mkState 0 []) /\
  ~ (exists spec' st',
       normalize ascii_upper ascii_only doc_null_responses (mkState 0 []) = (inr spec', st')).
Proof.
  split; [reflexivity|]. intros (spec' & st' & H). discriminate H.
Qed.

Lemma C4_witness :
  exists spec' st',
    normalize ascii_upper ascii_only doc_anomalies_and_removal (mkState 0 [])
    = (inr spec', st').
Proof.
  apply (C4_guarded_shapes_do_not_raise ascii_upper ascii_only).
  - eexists. split; [reflexivity|].
    intros paths Hp. cbn in Hp. inversion Hp; subst paths.
    eexists. split; [reflexivity|].
    intros p methods [Heq|[]]. inversion Heq; subst.
    eexists. split; [reflexivity|].
    intros m d r Hin Hr. cbn in Hin.
    repeat (destruct Hin as [Heq'|Hin];
            [inversion Heq'; subst; cbn in Hr; inversion Hr; reflexivity|]).
    destruct Hin.
  - intros op [<-|[]]. reflexivity.
Defined.

Lemma C5_witness :
  (normalize ascii_upper ascii_only doc_no_both (mkState 0 []) = (inr doc_no_both, mkState 0 [])
   \/ exists e, normalize ascii_upper ascii_only doc_no_both (mkState 0 []) = (inl e, mkState 0 []))
  /\
  (forall top, doc_no_both = JObj top -> dict_get "paths" top = None ->
     normalize ascii_upper ascii_only doc_no_both (mkState 0 []) = (inr doc_no_both, mkState 0 [])).
Proof.
  apply (C5_nothing_to_remove ascii_upper ascii_only doc_no_both (mkState 0 [])).
  intros op Hin. cbn in Hin.
  destruct Hin as [<-|[<-|[]]]; reflexivity.
Defined.

Lemma C6_witness :
  exists e, main ascii_upper ascii_only (world_of NoFile) = (Some e, world_of NoFile).
Proof.
  apply (C6_unreadable_input_aborts ascii_upper ascii_only (world_of NoFile)).
  left. reflexivity.
Defined.

(** C7 fails on a run that dies after a deletion: the removal line is
    printed, the summary line is not. *)
Lemma C7_counterexample :
  main ascii_upper ascii_only (world_of (Loaded doc_null_path_item))
  = (Some AttributeError,
     mkWorld (Loaded doc_null_path_item) None true
       ["Removed empty 200 from POST /a"]) /\
  forall n,
    ~ In (summary_line n)
         (console (snd (main ascii_upper ascii_only (world_of (Loaded doc_null_path_item))))).
Proof.
  split; [reflexivity|].
  intros n [H|[]]. unfold summary_line in H. cbn in H. discriminate H.
Qed.

Lemma C7_witness :
  exists spec,
    swagger_json_new (world_of (Loaded doc_example)) = Loaded spec /\
    swagger_json world_after_example = Some (fixed_spec spec) /\
    console world_after_example =
      (console (world_of (Loaded doc_example))
       ++ map (fun op => ("Removed empty 200 from " ++ ascii_upper (op_method op)
                            ++ " " ++ op_path op)%string) (removals spec)
       ++ [("Fixed " ++ str_of_nat (List.length (removals spec))
              ++ " endpoints. Saved to swagger.json")%string])%list.
Proof.
  apply (C7_lines_of_a_successful_run ascii_upper ascii_only
           (world_of (Loaded doc_example)) world_after_example).
  reflexivity.
Defined.

(** C8 fails: a document with no operation and a document with one print
    the same, so the number of operations is not in what is printed. *)
Lemma C8_counterexample :
  console (snd (main ascii_upper ascii_only (world_of (Loaded doc_empty_paths))))
  = console (snd (main ascii_upper ascii_only (world_of (Loaded doc_one_get)))) /\
  console (snd (main ascii_upper ascii_only (world_of (Loaded doc_one_get))))
  = ["Fixed 0 endpoints. Saved to swagger.json"] /\
  List.length (operations doc_empty_paths) = 0 /\
  List.length (operations doc_one_get) = 1.
Proof. repeat split; reflexivity. Qed.

Lemma C8_witness :
  last (console world_after_example) EmptyString
  = summary_line (List.length (removals doc_example)) /\
  forall (v v' : world) (spec2 : json),
    main ascii_upper ascii_only v = (None, v') ->
    swagger_json_new v = Loaded spec2 ->
    console v = console (world_of (Loaded doc_example)) ->
    map (fun op => (op_method op, op_path op)) (removals spec2) =
    map (fun op => (op_method op, op_path op)) (removals doc_example) ->
    console v' = console world_after_example.
Proof.
  apply (C8_only_the_removal_count_is_reported ascii_upper ascii_only
           (world_of (Loaded doc_example)) world_after_example doc_example);
    reflexivity.
Defined.

Lemma C10_witness :
  exists e w',
    main ascii_upper ascii_only (world_of (Loaded doc_null_path_item)) = (Some e, w') /\
    swagger_json w' = swagger_json (world_of (Loaded doc_null_path_item)).
Proof.
  eapply (C10_unguarded_paths_levels_abort ascii_upper ascii_only
            (world_of (Loaded doc_null_path_item))).
  - reflexivity.
  - reflexivity.
  - right. eexists _, "/b", JNull. split; [reflexivity|]. split.
    + right. left. reflexivity.
    + reflexivity.
Defined.

(** ** The further properties on the example documents *)

Lemma X1_witness :
  process_method ascii_upper ascii_only ("/" ++ surrogate) "post"
    (op_with_200 (JObj [])) (mkState 0 [])
  = (inl UnicodeEncodeError, mkState 1 []).
Proof.
  apply (proj1 (proj2 (X1_when_the_body_raises ascii_upper ascii_only
                         ("/" ++ surrogate) "post" (op_with_200 (JObj []))
                         (mkState 0 [])))).
  - exists (op_entries (JObj [])), (responses_with_200 (JObj [])), [].
    repeat split. left. reflexivity.
  - reflexivity.
Defined.

Lemma X2_witness :
  exists spec,
    swagger_json_new (world_of (Loaded doc_anomalies)) = Loaded spec /\
    well_shaped spec /\
    (forall op, In op (removals spec) ->
       encodable ascii_only
         (removed_line ascii_upper (op_method op) (op_path op)) = true) /\
    swagger_json_writable (world_of (Loaded doc_anomalies)) = true.
Proof.
  apply (proj1 (X2_run_ends_well_iff ascii_upper ascii_only
                  (world_of (Loaded doc_anomalies)))).
  eexists. reflexivity.
Defined.


Lemma X4_witness :
  ~ empty_content
      match dict_get "content"
              [("content", JObj [("application/json", obj_type_object)])] with
      | Some c => c
      | None => JObj []
      end.
Proof.
  apply (X4_no_removable_200_is_left ascii_upper ascii_only doc_two_paths (mkState 0 [])
           (fixed_spec doc_two_paths)
           (mkState 1 ["Removed empty 200 from POST /a"]) eq_refl
           (mkOp "/b" "put"
              (op_with_200
                 (JObj [("content", JObj [("application/json", obj_type_object)])])))
           (op_entries
              (JObj [("content", JObj [("application/json", obj_type_object)])]))
           (responses_with_200
              (JObj [("content", JObj [("application/json", obj_type_object)])]))
           [("content", JObj [("application/json", obj_type_object)])]).
  - cbn. right. right. left. reflexivity.
  - reflexivity.
  - reflexivity.
  - reflexivity.
  - reflexivity.
Defined.

Lemma X5_witness :
  main ascii_upper ascii_only (world_of (Loaded doc_example_fixed))
  = (None, mkWorld (Loaded doc_example_fixed) (Some doc_example_fixed) true
             ["Fixed 0 endpoints. Saved to swagger.json"]).
Proof.
  apply (X5_second_run_reports_zero ascii_upper ascii_only
           (world_of (Loaded doc_example)) world_after_example
           doc_example_fixed (world_of (Loaded doc_example_fixed)));
    reflexivity.
Defined.

Lemma X6_witness :
  traversal (fixed_spec doc_two_paths) = traversal doc_two_paths /\
  1 + count_200 (fixed_spec doc_two_paths) = 0 + count_200 doc_two_paths.
Proof.
  apply (X6_count_is_the_number_of_200_lost ascii_upper ascii_only doc_two_paths
           (mkState 0 []) (fixed_spec doc_two_paths)
           (mkState 1 ["Removed empty 200 from POST /a"])).
  reflexivity.
Defined.

Lemma X7_witness :
  main ascii_upper ascii_only (world_unwritable (Loaded doc_example))
  = (Some OSError,
     mkWorld (Loaded doc_example) None false ["Removed empty 200 from POST /x"]).
Proof.
  apply (X7_unwritable_output_loses_the_work ascii_upper ascii_only
           (world_unwritable (Loaded doc_example)) doc_example).
  - reflexivity.
  - apply (normalize_returns_iff ascii_upper ascii_only doc_example (mkState 0 [])).
    eexists _, _. reflexivity.
  - intros op [<-|[]]. reflexivity.
  - reflexivity.
Defined.
